(** * rPGP working examples: the three PGP scripts

    The repository holds three Python scripts,

      - [pgp_encrypter.py]                 (module [pgp_encrypter] below),
      - [keys_from_files/pgp_decrypter.py] (module [pgp_decrypter]),
      - [pgp_encoder.py]                   (module [pgp_encoder]),

    each a [main] that calls the OpenPGP library [pgpy].  The library is
    not part of the repository: the scripts are embedded over an abstract
    [Library] (the operations the call sites use), and a run is a state
    transformer on a [World] (file system, standard output, the random
    octets the library may draw, and a ghost log of the external calls
    made), with Python exceptions as the [Raise] outcome.  A file system is
    a finite map from paths to contents; the imports at the head of each
    script run no code of the repository and are left out. *)

From stdpp Require Import base option strings gmap list.
From Stdlib Require Import NArith Ascii.

Local Open Scope string_scope.
Local Open Scope list_scope.

(** ** Exceptions and outcomes *)

(** The failures named by the interface of the OpenPGP library, and the
    [OSError] that Python's [open] raises on a path that is not there. *)
Inductive exn : Type :=
| KeyFormatError
| MessageFormatError
| EncryptionError
| DecryptionError
| WrongKeyError
| PassphraseError
| OSError.

#[global] Instance exn_eq_dec : EqDecision exn.
Proof. solve_decision. Defined.

(** The outcome of a call: a value, or a raised exception. *)
Inductive result (A : Type) : Type :=
| Ok (a : A)
| Raise (e : exn).

Arguments Ok {A} a.
Arguments Raise {A} e.

Definition is_ok {A} (r : result A) : bool :=
  match r with Ok _ => true | Raise _ => false end.

Definition result_map {A B} (f : A -> B) (r : result A) : result B :=
  match r with Ok a => Ok (f a) | Raise e => Raise e end.

(** ** External calls and the world *)

(** The calls a script makes outside its own body: into [pgpy], and the
    builtins [open] and [print].  [EvJsonLoads] is [json.loads], which only
    the commented-out helper of [pgp_encoder.py] names. *)
Inductive Event : Type :=
| EvKeyFromFile (path : string)       (* pgpy.PGPKey.from_file(path) *)
| EvMessageFromFile (path : string)   (* pgpy.PGPMessage.from_file(path) *)
| EvMessageNew (text : string)        (* pgpy.PGPMessage.new(text) *)
| EvEncrypt                           (* key.encrypt(message) *)
| EvDecrypt                           (* key.decrypt(message) *)
| EvOpenW (path : string)             (* open(path, 'w') *)
| EvPrint (file : option string) (text : string)
                                      (* print(text) / print(text, file=f) *)
| EvJsonLoads.                        (* json.loads(text) *)

#[global] Instance Event_eq_dec : EqDecision Event.
Proof. solve_decision. Defined.

Record World : Type := mkWorld {
  files : gmap string string;   (* path |-> content *)
  stdout : string;              (* everything printed so far *)
  urandom : N;                  (* random octets handed to the library *)
  calls : list Event;           (* ghost: external calls, oldest first *)
}.

(** A computation: runs in a world, ends in a value or an exception, and
    leaves a world behind (effects made before an exception stay). *)
Definition Run (A : Type) : Type := World -> result A * World.

#[global] Instance Run_ret : MRet Run := fun A a w => (Ok a, w).

#[global] Instance Run_bind : MBind Run := fun A B f m w =>
  match m w with
  | (Ok a, w') => f a w'
  | (Raise e, w') => (Raise e, w')
  end.

(** Turn the outcome of a pure library operation into a computation. *)
Definition lift {A} (r : result A) : Run A := fun w => (r, w).

(** Record an external call in the ghost log. *)
Definition call (ev : Event) : Run unit := fun w =>
  (Ok tt, mkWorld (files w) (stdout w) (urandom w) (calls w ++ [ev])).

(** [open(path, 'rb')] followed by reading the whole file. *)
Definition read_file (path : string) : Run string := fun w =>
  match files w !! path with
  | Some data => (Ok data, w)
  | None => (Raise OSError, w)
  end.

(** The random octets of this run. *)
Definition get_urandom : Run N := fun w => (Ok (urandom w), w).

(** Change the world, with no result. *)
Definition modify (f : World -> World) : Run unit := fun w => (Ok tt, f w).

(** The line terminator that [print] appends. *)
Definition newline : string := String (Ascii.ascii_of_nat 10) EmptyString.

Definition set_file (path content : string) (w : World) : World :=
  mkWorld (<[path := content]> (files w)) (stdout w) (urandom w) (calls w).

Definition put_stdout (text : string) (w : World) : World :=
  mkWorld (files w) (stdout w +:+ text) (urandom w) (calls w).

(** [open(path, 'w')]: the file is created or truncated; the handle is the
    path.  A path that cannot be opened for writing is outside this file
    system of paths and contents: what is proved below of runs that end in an
    exception is stated of failed reads and library calls, and what is proved
    of the output is stated of runs that end without one. *)
Definition open_w (path : string) : Run string :=
  call (EvOpenW path);;
  modify (set_file path "");;
  mret path.

(** [print(text)]: the text and a newline go to standard output. *)
Definition print (text : string) : Run unit :=
  call (EvPrint None text);;
  modify (put_stdout (text +:+ newline)).

(** [print(text, file=f)]: the text and a newline are appended to what the
    open file holds. *)
Definition print_to (f : string) (text : string) : Run unit :=
  call (EvPrint (Some f) text);;
  modify (fun w => set_file f (default "" (files w !! f) +:+ text +:+ newline) w).

(** ** The OpenPGP library, as the scripts call it *)

(** What the call sites of the three scripts use of [pgpy].  The library
    touches the file system only in [from_file], which reads the file it is
    given.  Parsing and decryption are functions of their arguments.
    OpenPGP public-key encryption makes a fresh session key at every call, so
    [key_encrypt] is a function of the key, the message and the random
    octets it draws. *)
Record Library : Type := mkLibrary {
  KeyHandle : Type;
  MessageHandle : Type;
  Others : Type;
  (* PGPKey.from_file, once the file is read: the key and the other keys
     found with it *)
  key_parse : string -> result (KeyHandle * Others);
  (* PGPMessage.from_file, once the file is read *)
  message_parse : string -> result MessageHandle;
  (* PGPMessage.new(text) *)
  message_new : string -> result MessageHandle;
  (* key.encrypt(message) *)
  key_encrypt : KeyHandle -> MessageHandle -> N -> result MessageHandle;
  (* key.decrypt(message) *)
  key_decrypt : KeyHandle -> MessageHandle -> result MessageHandle;
  (* the attribute message.message *)
  message : MessageHandle -> string;
  (* str(message): the ASCII-armored text, as print obtains it *)
  armor : MessageHandle -> string;
}.

Section Calls.
Context (L : Library).

Definition PGPKey_from_file (path : string) : Run (KeyHandle L * Others L) :=
  call (EvKeyFromFile path);;
  data ← read_file path;
  lift (key_parse L data).

Definition PGPMessage_from_file (path : string) : Run (MessageHandle L) :=
  call (EvMessageFromFile path);;
  data ← read_file path;
  lift (message_parse L data).

Definition PGPMessage_new (text : string) : Run (MessageHandle L) :=
  call (EvMessageNew text);;
  lift (message_new L text).

Definition PGPKey_encrypt (key : KeyHandle L) (msg : MessageHandle L)
  : Run (MessageHandle L) :=
  call EvEncrypt;;
  r ← get_urandom;
  lift (key_encrypt L key msg r).

Definition PGPKey_decrypt (key : KeyHandle L) (msg : MessageHandle L)
  : Run (MessageHandle L) :=
  call EvDecrypt;;
  lift (key_decrypt L key msg).

End Calls.

(** ** The scripts *)

(** [pgp_encrypter.py] *)
Module pgp_encrypter.

Definition main (L : Library) : Run unit :=
  let encrypted_msg_file := "encrypted_message.txt" in
  let public_key_file := "./key_files/pub.asc" in
  let secret_msg := "Secret message from python encoder script" in
  '(pubkey, _) ← PGPKey_from_file L public_key_file;
  message ← PGPMessage_new L secret_msg;
  armored_msg ← PGPKey_encrypt L pubkey message;
  f ← open_w encrypted_msg_file;
  print_to f (armor L armored_msg).

End pgp_encrypter.

(** [keys_from_files/pgp_decrypter.py] *)
Module pgp_decrypter.

Definition pgp_msg_file : string := "p1_armored_message.txt".

Definition main (L : Library) : Run unit :=
  '(privkey, _) ← PGPKey_from_file L "./key_files/person_two/sec.asc";
  crypt_msg ← PGPMessage_from_file L pgp_msg_file;
  msg ← (d ← PGPKey_decrypt L privkey crypt_msg; mret (message L d));
  print msg.

End pgp_decrypter.

(** [pgp_encoder.py]: the helper [get_token_from_payload], the second
    assignment to [pgp_msg_file] and the tail of [main] are comments in the
    source, so they have no counterpart here. *)
Module pgp_encoder.

Definition pgp_msg_file : string := "p1_armored_message.txt".

Definition main (L : Library) : Run unit :=
  '(privkey, _) ← PGPKey_from_file L "./key_files/person_two/sec.asc";
  crypt_msg ← PGPMessage_from_file L pgp_msg_file;
  msg ← (d ← PGPKey_decrypt L privkey crypt_msg; mret (message L d));
  print msg.

End pgp_encoder.

(** ** Runs of the scripts *)

Inductive script : Type := Encrypter | Decrypter | Encoder.

#[global] Instance script_eq_dec : EqDecision script.
Proof. solve_decision. Defined.

Definition script_main (s : script) : Library -> Run unit :=
  match s with
  | Encrypter => pgp_encrypter.main
  | Decrypter => pgp_decrypter.main
  | Encoder => pgp_encoder.main
  end.

(** The key file a script names, and the files it reads. *)
Definition key_file (s : script) : string :=
  match s with
  | Encrypter => "./key_files/pub.asc"
  | Decrypter | Encoder => "./key_files/person_two/sec.asc"
  end.

Definition message_file : string := "p1_armored_message.txt".

Definition inputs (s : script) : list string :=
  match s with
  | Encrypter => [key_file Encrypter]
  | Decrypter | Encoder => [key_file s; message_file]
  end.

Definition same_inputs (s : script) (w1 w2 : World) : Prop :=
  Forall (fun p => files w1 !! p = files w2 !! p) (inputs s).

(** The calls of a complete run of each script, in order, when [text] is
    what it prints. *)
Definition script_calls (s : script) (text : string) : list Event :=
  match s with
  | Encrypter =>
      [EvKeyFromFile "./key_files/pub.asc";
       EvMessageNew "Secret message from python encoder script";
       EvEncrypt;
       EvOpenW "encrypted_message.txt";
       EvPrint (Some "encrypted_message.txt") text]
  | Decrypter | Encoder =>
      [EvKeyFromFile "./key_files/person_two/sec.asc";
       EvMessageFromFile "p1_armored_message.txt";
       EvDecrypt;
       EvPrint None text]
  end.

(** The calls a computation adds to the log of the world it starts in. *)
Definition trace {A} (m : Run A) (w : World) : list Event :=
  drop (length (calls w)) (calls (m w).2).

(** What a run shows: how it ends, and the calls it makes, with the text
    it prints. *)
Definition behaviour (s : script) (L : Library) (w : World)
  : result unit * list Event :=
  ((script_main s L w).1, trace (script_main s L) w).

(** The world [w] after the calls [t], and nothing else, were made in it. *)
Definition logged (w : World) (t : list Event) : World :=
  mkWorld (files w) (stdout w) (urandom w) (calls w ++ t).

(** The effect of the calls to [open] and [print] on files and standard
    output, call by call. *)
Definition replay_call (ev : Event) (w : World) : World :=
  match ev with
  | EvOpenW p => set_file p "" w
  | EvPrint None text => put_stdout (text +:+ newline) w
  | EvPrint (Some f) text =>
      set_file f (default "" (files w !! f) +:+ text +:+ newline) w
  | _ => w
  end.

Definition replay (t : list Event) (w : World) : World :=
  foldl (fun w ev => replay_call ev w) w t.

(** *** The library calls of a script, without the world

    [read] is the file access of [from_file]; [library_result] chains the
    reads and the three library operations of a script's [main] and gives
    the text that [main] goes on to print. *)

#[global] Instance result_ret : MRet result := fun A a => Ok a.

#[global] Instance result_bind : MBind result := fun A B f r =>
  match r with Ok a => f a | Raise e => Raise e end.

Definition read (fs : gmap string string) (path : string) : result string :=
  match fs !! path with Some data => Ok data | None => Raise OSError end.

Definition library_result (s : script) (L : Library) (w : World)
  : result string :=
  match s with
  | Encrypter =>
      data ← read (files w) "./key_files/pub.asc";
      '(pubkey, _) ← key_parse L data;
      message ← message_new L "Secret message from python encoder script";
      armored_msg ← key_encrypt L pubkey message (urandom w);
      mret (armor L armored_msg)
  | Decrypter | Encoder =>
      data ← read (files w) "./key_files/person_two/sec.asc";
      '(privkey, _) ← key_parse L data;
      data' ← read (files w) "p1_armored_message.txt";
      crypt_msg ← message_parse L data';
      d ← key_decrypt L privkey crypt_msg;
      mret (message L d)
  end.

(** Where a script puts the text: the encrypter in its output file, whose
    old content goes; the decrypters on standard output. *)
Definition output (s : script) (text : string) (w : World) : World :=
  match s with
  | Encrypter => set_file "encrypted_message.txt" (text +:+ newline) w
  | Decrypter | Encoder => put_stdout (text +:+ newline) w
  end.

(** The three library calls of a script. *)
Definition library_calls (s : script) : list Event :=
  take 3 (script_calls s "").

Definition is_key_load (ev : Event) : bool :=
  match ev with EvKeyFromFile _ => true | _ => false end.

Definition is_message_load (ev : Event) : bool :=
  match ev with EvMessageFromFile _ | EvMessageNew _ => true | _ => false end.

Definition is_crypt_op (ev : Event) : bool :=
  match ev with EvEncrypt | EvDecrypt => true | _ => false end.

Definition is_output (ev : Event) : bool :=
  match ev with EvPrint _ _ => true | _ => false end.

Definition is_library_call (ev : Event) : bool :=
  match ev with
  | EvKeyFromFile _ | EvMessageFromFile _ | EvMessageNew _
  | EvEncrypt | EvDecrypt => true
  | _ => false
  end.

Definition count (p : Event -> bool) (t : list Event) : nat :=
  length (filter (fun ev => p ev = true) t).

(** The steps of the token workflow that the comments of [pgp_encoder.py]
    sketch: writing or loading [ep.pgp], loading [private.key], and decoding
    JSON. *)
Definition token_step (ev : Event) : bool :=
  match ev with
  | EvOpenW p | EvMessageFromFile p => bool_decide (p = "ep.pgp")
  | EvKeyFromFile p => bool_decide (p = "private.key")
  | EvJsonLoads => true
  | _ => false
  end.

(** The library with the second component of [PGPKey.from_file]'s result
    replaced through [g]. *)
Definition with_others {T} (L : Library) (g : Others L -> T) : Library :=
  mkLibrary (KeyHandle L) (MessageHandle L) T
    (fun data => result_map (fun kx => (kx.1, g kx.2)) (key_parse L data))
    (message_parse L) (message_new L) (key_encrypt L) (key_decrypt L)
    (message L) (armor L).

(** ** The library's interface, as the specification gives it *)

Module OpenPGP.

(** The conditions under which [decrypt] fails although the key matches. *)
Inductive key_fault : Type := WrongKey | Passphrase.

Definition fault_exn (f : key_fault) : exn :=
  match f with WrongKey => WrongKeyError | Passphrase => PassphraseError end.

(** Modelled from the spec: the OpenPGP cryptographic engine (key parsing,
    packet framing, session keys, ciphers, armor), which the repository
    takes from [pgpy] and the specification treats as an external
    collaborator.  The record holds what the four interface sentences
    presuppose without defining it. *)
Record Engine : Type := mkEngine {
  Key : Type;
  Message : Type;
  Extra : Type;
  (* the key, and what else the file holds, of well-formed armored or
     binary key data; None on malformed data *)
  key_of_data : string -> option (Key * Extra);
  (* the message of a well-formed armored ciphertext; None otherwise *)
  message_of_armor : string -> option Message;
  (* a literal message and its text *)
  literal : string -> Message;
  text_of : Message -> string;
  (* the ASCII armor of a message *)
  armor_of : Message -> string;
  (* the key has an encryption-capable subkey *)
  encryption_capable : Key -> bool;
  (* the message encrypted to the key under the session key made from the
     given octets *)
  seal : Key -> Message -> N -> Message;
  (* the key can decrypt the session key of the message *)
  key_matches : Key -> Message -> bool;
  (* WrongKeyError or PassphraseError applies *)
  applicable : Key -> Message -> option key_fault;
  (* the literal message inside a message encrypted to the key *)
  unseal : Key -> Message -> Message;
}.

Section Interface.
Context (E : Engine).

(** Modelled from the spec: [loadKey], after the file is read: "parses an
    armored or binary key file, fails with KeyFormatError on malformed
    input". *)
Definition parse_key (data : string) : result (Key E * Extra E) :=
  match key_of_data E data with
  | Some kx => Ok kx
  | None => Raise KeyFormatError
  end.

(** Modelled from the spec: [loadMessage], after the file is read: "parses
    an armored ciphertext file, fails with MessageFormatError on malformed
    input". *)
Definition parse_message (data : string) : result (Message E) :=
  match message_of_armor E data with
  | Some m => Ok m
  | None => Raise MessageFormatError
  end.

(** Modelled from the spec: [encrypt], before armoring: "fails with
    EncryptionError if the key lacks an encryption-capable subkey". *)
Definition encrypt_message (k : Key E) (m : Message E) (octets : N)
  : result (Message E) :=
  if encryption_capable E k then Ok (seal E k m octets)
  else Raise EncryptionError.

(** Modelled from the spec: [decrypt]: "fails with DecryptionError if the
    key does not match, or WrongKeyError/PassphraseError as applicable". *)
Definition decrypt_message (k : Key E) (m : Message E) : result (Message E) :=
  if key_matches E k m then
    match applicable E k m with
    | Some f => Raise (fault_exn f)
    | None => Ok (unseal E k m)
    end
  else Raise DecryptionError.

(** Modelled from the spec: the library [pgpy] that the scripts import,
    assembled from the four operations above. *)
Definition library : Library :=
  mkLibrary (Key E) (Message E) (Extra E)
    parse_key parse_message (fun text => Ok (literal E text))
    encrypt_message decrypt_message (text_of E) (armor_of E).

(** The four operations of the interface, as the scripts reach them. *)
Definition loadKey (path : string) : Run (Key E) :=
  '(k, _) ← PGPKey_from_file library path;
  mret k.

Definition loadMessage (path : string) : Run (Message E) :=
  PGPMessage_from_file library path.

Definition encrypt (k : Key E) (plaintext : string) : Run string :=
  m ← PGPMessage_new library plaintext;
  c ← PGPKey_encrypt library k m;
  mret (armor_of E c).

Definition decrypt (k : Key E) (m : Message E) : Run string :=
  d ← PGPKey_decrypt library k m;
  mret (text_of E d).

End Interface.

(** *** A small engine to run the scripts on

    Keys are three characters: an identifier, [E] when the key can encrypt,
    [L] when a passphrase locks it.  An encrypted message names its
    recipient and its session octet in clear before the text: there is no
    secrecy here, only the shape of the interface. *)

Record toy_key : Type := mkToyKey {
  kid : ascii;
  can_encrypt : bool;
  locked : bool;
}.

Inductive toy_message : Type :=
| Literal (text : string)
| Sealed (recipient : ascii) (octet : ascii) (text : string).

Definition flag_of (yes : ascii) (c : ascii) : option bool :=
  if bool_decide (c = yes) then Some true
  else if bool_decide (c = "-"%char) then Some false
  else None.

Definition toy_key_of_data (data : string) : option (toy_key * unit) :=
  match data with
  | String i (String e (String l EmptyString)) =>
      match flag_of "E"%char e, flag_of "L"%char l with
      | Some e', Some l' => Some (mkToyKey i e' l', tt)
      | _, _ => None
      end
  | _ => None
  end.

Definition toy_message_of_armor (data : string) : option toy_message :=
  match data with
  | String "#"%char (String r (String o text)) => Some (Sealed r o text)
  | _ => None
  end.

Definition toy_text_of (m : toy_message) : string :=
  match m with Literal t | Sealed _ _ t => t end.

Definition toy_armor_of (m : toy_message) : string :=
  match m with
  | Literal t => t
  | Sealed r o t => String "#"%char (String r (String o t))
  end.

Definition toy_seal (k : toy_key) (m : toy_message) (octets : N) : toy_message :=
  Sealed (kid k) (Ascii.ascii_of_N octets) (toy_text_of m).

Definition toy_key_matches (k : toy_key) (m : toy_message) : bool :=
  match m with
  | Literal _ => false
  | Sealed r _ _ => bool_decide (r = kid k)
  end.

Definition toy_applicable (k : toy_key) (m : toy_message) : option key_fault :=
  if locked k then Some Passphrase else None.

Definition toy_unseal (k : toy_key) (m : toy_message) : toy_message :=
  Literal (toy_text_of m).

Definition toy : Engine :=
  mkEngine toy_key toy_message unit
    toy_key_of_data toy_message_of_armor Literal toy_text_of toy_armor_of
    can_encrypt toy_seal toy_key_matches toy_applicable toy_unseal.

End OpenPGP.

(** Worlds to run the small engine in. *)
Definition world_of (fs : gmap string string) (octets : N) : World :=
  mkWorld fs "" octets [].

Definition empty_world : World := world_of ∅ 0.

(** Person two's unlocked key [b], and a message sealed to [b]. *)
Definition decrypt_world : World :=
  world_of (<["./key_files/person_two/sec.asc" := "bE-"]>
            (<["p1_armored_message.txt" := "#bkhello"]> ∅)) 0.

(** The public key [a], with an old output file lying around. *)
Definition encrypt_world (octets : N) : World :=
  world_of (<["./key_files/pub.asc" := "aE-"]>
            (<["encrypted_message.txt" := "stale"]> ∅)) octets.

(** Person two's key [b] behind a passphrase, with the same message. *)
Definition locked_world : World :=
  world_of (<["./key_files/person_two/sec.asc" := "bEL"]>
            (<["p1_armored_message.txt" := "#bkhello"]> ∅)) 0.

(** The key [c], which the message was not sealed to. *)
Definition mismatch_world : World :=
  world_of (<["./key_files/person_two/sec.asc" := "cE-"]>
            (<["p1_armored_message.txt" := "#bkhello"]> ∅)) 0.

(** A key file that is no key, and a message file that is no message. *)
Definition bad_key_world : World :=
  world_of (<["./key_files/person_two/sec.asc" := "not a key"]>
            (<["p1_armored_message.txt" := "#bkhello"]> ∅)) 0.

Definition bad_message_world : World :=
  world_of (<["./key_files/person_two/sec.asc" := "bE-"]>
            (<["p1_armored_message.txt" := "hello"]> ∅)) 0.

(** A public key [a] that cannot encrypt. *)
Definition sign_only_world : World :=
  world_of (<["./key_files/pub.asc" := "a--"]> ∅) 0.

(** [decrypt_world] with unrelated files added and other octets. *)
Definition busy_world : World :=
  world_of (<["ep.pgp" := "#bkold token"]>
            (<["notes.txt" := "unrelated"]> (files decrypt_world))) 7.



(** * Properties of the scripts *)

(** ** Reasoning about runs *)

Lemma trace_of_log {A} (m : Run A) (w : World) (t : list Event) :
  calls (m w).2 = calls w ++ t -> trace m w = t.
Proof. intros H. unfold trace. rewrite H. apply drop_app_length. Qed.

Ltac run_unfold :=
  unfold library_result, read, script_main, pgp_encrypter.main, pgp_decrypter.main, pgp_encoder.main,
    pgp_decrypter.pgp_msg_file, pgp_encoder.pgp_msg_file,
    PGPKey_from_file, PGPMessage_from_file, PGPMessage_new, PGPKey_encrypt,
    PGPKey_decrypt, open_w, print, print_to, call, read_file, get_urandom,
    modify, lift, set_file, put_stdout, mbind, mret, Run_bind, Run_ret,
    result_bind, result_ret in *;
  cbn [files stdout urandom calls fst snd] in *.

(** One case split on the next file lookup or library outcome of a run. *)
Ltac run_case :=
  match goal with
  | H : ?x = _ |- context [match ?x with _ => _ end] => rewrite H
  | |- context [match files ?w !! ?p with _ => _ end] =>
      destruct (files w !! p) eqn:?
  | |- context [match key_parse ?L ?d with _ => _ end] =>
      destruct (key_parse L d) as [[? ?]|?] eqn:?
  | |- context [match message_parse ?L ?d with _ => _ end] =>
      destruct (message_parse L d) eqn:?
  | |- context [match message_new ?L ?d with _ => _ end] =>
      destruct (message_new L d) eqn:?
  | |- context [match key_encrypt ?L ?k ?m ?r with _ => _ end] =>
      destruct (key_encrypt L k m r) eqn:?
  | |- context [match key_decrypt ?L ?k ?m with _ => _ end] =>
      destruct (key_decrypt L k m) eqn:?
  end; cbn [files stdout urandom calls fst snd] in *.

Ltac run_cases := run_unfold; repeat run_case.


(** A run whose library calls give [text] ends normally, having made all
    the script's calls and put the text out. *)
Lemma run_complete (s : script) (L : Library) (w : World) (text : string) :
  library_result s L w = Ok text ->
  script_main s L w = (Ok tt, logged (output s text w) (script_calls s text)).
Proof.
  destruct s; run_cases; intros [= <-]; unfold logged, output, set_file, put_stdout;
    cbn [files stdout urandom calls]; rewrite <- ?app_assoc;
    rewrite ?lookup_insert_eq, ?insert_insert_eq; reflexivity.
Qed.

(** A run in which a read or a library call raises ends with that
    exception at that call: the world is as before but for the log, which
    holds between one and three of the script's library calls. *)
Lemma run_failed (s : script) (L : Library) (w : World) (e : exn) :
  library_result s L w = Raise e ->
  exists n, n < 3 /\
    script_main s L w = (Raise e, logged w (take (S n) (script_calls s ""))).
Proof.
  destruct s; run_cases; intros [= <-]; unfold logged;
    rewrite <- ?app_assoc;
    first [ by exists 0; split; [lia|] | by exists 1; split; [lia|]
          | by exists 2; split; [lia|] ].
Qed.

Lemma append_empty_r (t : string) : t +:+ "" = t.
Proof.
  induction t as [|c t IH]; [reflexivity |].
  change (String c (t +:+ "") = String c t). by rewrite IH.
Qed.

Lemma library_result_dec (s : script) (L : Library) (w : World) :
  {text | library_result s L w = Ok text} + {e | library_result s L w = Raise e}.
Proof. destruct (library_result s L w) as [text|e]; eauto. Qed.

(** The calls of a failed run are library calls of the script, and change
    neither files nor standard output. *)
Lemma failed_calls (s : script) (n : nat) (text : string) (w : World) :
  n < 3 ->
  take (S n) (script_calls s "") `prefix_of` script_calls s text /\
  take (S n) (script_calls s "") `prefix_of` library_calls s /\
  replay (take (S n) (script_calls s "")) w = w.
Proof.
  intros Hn. destruct n as [|[|[|]]]; [| | |lia];
    destruct s; (split; [eexists; reflexivity |]);
    (split; [eexists; reflexivity |]); reflexivity.
Qed.

Lemma complete_calls (s : script) (text : string) (w : World) :
  replay (script_calls s text) w = output s text w /\
  filter (fun ev => is_library_call ev = true) (script_calls s text)
    = library_calls s.
Proof.
  split; [| by destruct s].
  destruct s; unfold replay, output; cbn [foldl script_calls replay_call];
    unfold set_file, put_stdout; cbn [files stdout urandom calls];
    rewrite ?lookup_insert_eq, ?insert_insert_eq; reflexivity.
Qed.

Lemma trace_logged {A} (m : Run A) (w w' : World) (r : result A) (t : list Event) :
  m w = (r, logged w' t) -> calls w' = calls w -> trace m w = t.
Proof.
  intros Hrun Hcalls. apply trace_of_log. rewrite Hrun. cbn. by rewrite Hcalls.
Qed.

Lemma calls_output (s : script) (text : string) (w : World) :
  calls (output s text w) = calls w.
Proof. by destruct s. Qed.

(** How any run ends: with all the calls made, or at a failed library
    call. *)
Lemma run_cases_of (s : script) (L : Library) (w : World) :
  (exists text, library_result s L w = Ok text /\
     script_main s L w = (Ok tt, logged (output s text w) (script_calls s text)) /\
     trace (script_main s L) w = script_calls s text) \/
  (exists e n, library_result s L w = Raise e /\ n < 3 /\
     script_main s L w = (Raise e, logged w (take (S n) (script_calls s ""))) /\
     trace (script_main s L) w = take (S n) (script_calls s "")).
Proof.
  destruct (library_result_dec s L w) as [[text H]|[e H]].
  - left. exists text. pose proof (run_complete s L w text H) as Hrun.
    repeat split; [done.. |].
    apply (trace_logged _ _ _ _ _ Hrun), calls_output.
  - right. destruct (run_failed s L w e H) as (n & Hn & Hrun).
    exists e, n. repeat split; [done.. |].
    by apply (trace_logged _ _ _ _ _ Hrun).
Qed.

Lemma run_ok (s : script) (L : Library) (w : World) :
  is_ok (script_main s L w).1 = true ->
  exists text, library_result s L w = Ok text /\
    script_main s L w = (Ok tt, logged (output s text w) (script_calls s text)) /\
    trace (script_main s L) w = script_calls s text.
Proof.
  destruct (run_cases_of s L w) as [H|(e & n & _ & _ & Hrun & _)]; [by intros _ |].
  rewrite Hrun. discriminate.
Qed.

(** The world after a run is the world before with the run's calls logged
    and the effects of its [open] and [print] calls applied. *)
Lemma run_replay (s : script) (L : Library) (w : World) :
  let t := trace (script_main s L) w in
  script_main s L w = ((script_main s L w).1, logged (replay t w) t).
Proof.
  cbv zeta.
  destruct (run_cases_of s L w)
    as [(text & _ & Hrun & ->)|(e & n & _ & Hn & Hrun & ->)];
    rewrite Hrun; cbn [fst].
  - by rewrite (proj1 (complete_calls s text w)).
  - by rewrite (proj2 (proj2 (failed_calls s n "" w Hn))).
Qed.

(** Runs in worlds that agree on the script's input files, and on the
    random octets, end alike and make the same calls. *)
Lemma run_agree (s : script) (L : Library) (w1 w2 : World) :
  same_inputs s w1 w2 -> urandom w1 = urandom w2 ->
  library_result s L w1 = library_result s L w2 /\
  behaviour s L w1 = behaviour s L w2.
Proof.
  intros Hin Hrand.
  assert (forall p, p ∈ inputs s -> files w1 !! p = files w2 !! p) as Hfile
    by (apply Forall_forall, Hin).
  assert (exists t, (script_main s L w1).1 = (script_main s L w2).1 /\
            calls (script_main s L w1).2 = calls w1 ++ t /\
            calls (script_main s L w2).2 = calls w2 ++ t /\
            library_result s L w1 = library_result s L w2) as (t & Hr & H1 & H2 & Hl).
  { destruct s; cbn in Hfile.
    - pose proof (Hfile "./key_files/pub.asc" ltac:(set_solver)) as Hk.
      run_unfold. rewrite Hk, Hrand. repeat run_case;
        (eexists; split; [reflexivity |];
         split; [rewrite <- ?app_assoc; reflexivity |];
         split; [rewrite <- ?app_assoc; reflexivity | reflexivity]).
    - pose proof (Hfile "./key_files/person_two/sec.asc" ltac:(set_solver)) as Hk.
      pose proof (Hfile "p1_armored_message.txt" ltac:(set_solver)) as Hm.
      run_unfold. rewrite Hk, Hm. repeat run_case;
        (eexists; split; [reflexivity |];
         split; [rewrite <- ?app_assoc; reflexivity |];
         split; [rewrite <- ?app_assoc; reflexivity | reflexivity]).
    - pose proof (Hfile "./key_files/person_two/sec.asc" ltac:(set_solver)) as Hk.
      pose proof (Hfile "p1_armored_message.txt" ltac:(set_solver)) as Hm.
      run_unfold. rewrite Hk, Hm. repeat run_case;
        (eexists; split; [reflexivity |];
         split; [rewrite <- ?app_assoc; reflexivity |];
         split; [rewrite <- ?app_assoc; reflexivity | reflexivity]). }
  split; [exact Hl |].
  unfold behaviour. by rewrite (trace_of_log _ _ _ H1), (trace_of_log _ _ _ H2), Hr.
Qed.

(** The decrypters never ask for random octets. *)
Lemma decrypter_ignores_urandom (s : script) (L : Library) (w : World) (octets : N) :
  s <> Encrypter ->
  script_main s L (mkWorld (files w) (stdout w) octets (calls w))
  = ((script_main s L w).1,
     mkWorld (files (script_main s L w).2) (stdout (script_main s L w).2)
       octets (calls (script_main s L w).2)).
Proof.
  intros Hs. destruct s; [done | |]; run_cases; reflexivity.
Qed.

Lemma counts_complete (s : script) (text : string) :
  count is_key_load (script_calls s text) = 1 /\
  count is_message_load (script_calls s text) = 1 /\
  count is_crypt_op (script_calls s text) = 1 /\
  count is_output (script_calls s text) = 1.
Proof. destruct s; vm_compute; repeat split. Qed.

Lemma count_prefix (p : Event -> bool) (t u : list Event) :
  t `prefix_of` u -> count p t <= count p u.
Proof.
  intros [k ->]. unfold count. rewrite filter_app, length_app. lia.
Qed.

Lemma trace_prefix (s : script) (L : Library) (w : World) :
  exists text, trace (script_main s L) w `prefix_of` script_calls s text.
Proof.
  destruct (run_cases_of s L w)
    as [(text & _ & _ & ->)|(e & n & _ & Hn & _ & ->)].
  - by exists text.
  - exists "". apply failed_calls; [exact empty_world | exact Hn].
Qed.

(** ** C1: what a run does *)

(** C1, as stated, fails: in a world where the key file is missing, the run
    of the decrypter stops at the key load; no message is loaded, nothing is
    decrypted and nothing is printed. *)
Lemma C1_failed_run_stops_early :
  let run := script_main Decrypter (OpenPGP.library OpenPGP.toy) in
  (run empty_world).1 = Raise OSError /\
  trace run empty_world = [EvKeyFromFile "./key_files/person_two/sec.asc"] /\
  count is_message_load (trace run empty_world) = 0 /\
  count is_crypt_op (trace run empty_world) = 0 /\
  count is_output (trace run empty_world) = 0 /\
  stdout (run empty_world).2 = "".
Proof. vm_compute. repeat split. Qed.

(** C1 (amended): every run of a script that ends without an exception
    makes exactly the script's calls: one key load from the armored key
    file, one message load (a literal string for the encrypter, the armored
    ciphertext file for the decrypters), one encrypt or decrypt, and one
    print of the result, to the file for the encrypter and to standard
    output for the decrypters.  A run that ends in an exception has made an
    initial segment of these calls, so at most one of each. *)
Theorem C1_complete_run (s : script) (L : Library) (w : World) :
  let t := trace (script_main s L) w in
  (count is_key_load t <= 1 /\ count is_message_load t <= 1 /\
   count is_crypt_op t <= 1 /\ count is_output t <= 1) /\
  (is_ok (script_main s L w).1 = true ->
   exists text,
     library_result s L w = Ok text /\ t = script_calls s text /\
     count is_key_load t = 1 /\ count is_message_load t = 1 /\
     count is_crypt_op t = 1 /\ count is_output t = 1).
Proof.
  cbv zeta. split.
  - destruct (trace_prefix s L w) as [text Hpre].
    destruct (counts_complete s text) as (Hk & Hm & Hc & Ho).
    repeat split;
      (etransitivity; [apply count_prefix, Hpre | lia]).
  - intros Hok. destruct (run_ok s L w Hok) as (text & Hres & _ & ->).
    exists text. repeat split; [done | apply counts_complete..].
Qed.

Lemma C1_complete_run_witness :
  is_ok (script_main Decrypter (OpenPGP.library OpenPGP.toy) decrypt_world).1 = true /\
  exists text,
    library_result Decrypter (OpenPGP.library OpenPGP.toy) decrypt_world = Ok text /\
    trace (script_main Decrypter (OpenPGP.library OpenPGP.toy)) decrypt_world
      = script_calls Decrypter text /\
    count is_key_load (trace (script_main Decrypter
      (OpenPGP.library OpenPGP.toy)) decrypt_world) = 1 /\
    count is_message_load (trace (script_main Decrypter
      (OpenPGP.library OpenPGP.toy)) decrypt_world) = 1 /\
    count is_crypt_op (trace (script_main Decrypter
      (OpenPGP.library OpenPGP.toy)) decrypt_world) = 1 /\
    count is_output (trace (script_main Decrypter
      (OpenPGP.library OpenPGP.toy)) decrypt_world) = 1.
Proof.
  split; [vm_compute; reflexivity |].
  apply (C1_complete_run Decrypter (OpenPGP.library OpenPGP.toy) decrypt_world).
  vm_compute; reflexivity.
Defined.

(** ** C7: the token workflow *)

(** C7: no run of any of the three scripts makes a step of the token
    workflow that the comments of [pgp_encoder.py] sketch: none writes or
    loads [ep.pgp], loads [private.key] or decodes JSON, the two files are
    left as they were, and the message file of [pgp_encoder.py] is not
    [ep.pgp]. *)
Theorem C7_token_workflow_never_runs (s : script) (L : Library) (w : World) :
  Forall (fun ev => token_step ev = false) (trace (script_main s L) w) /\
  files (script_main s L w).2 !! "ep.pgp" = files w !! "ep.pgp" /\
  files (script_main s L w).2 !! "private.key" = files w !! "private.key" /\
  pgp_encoder.pgp_msg_file <> "ep.pgp".
Proof.
  split; [| split; [| split; [| done]]].
  - destruct (trace_prefix s L w) as [text [k Hk]].
    assert (Forall (fun ev => token_step ev = false) (script_calls s text)) as Hall
      by (destruct s; repeat constructor).
    rewrite Hk in Hall. by apply Forall_app in Hall as [? _].
  - destruct (run_cases_of s L w)
      as [(text & _ & -> & _)|(e & n & _ & _ & -> & _)]; [| done].
    destruct s; cbn; [by rewrite lookup_insert_ne | done..].
  - destruct (run_cases_of s L w)
      as [(text & _ & -> & _)|(e & n & _ & _ & -> & _)]; [| done].
    destruct s; cbn; [by rewrite lookup_insert_ne | done..].
Qed.

(** ** C9: the files a run writes *)

(** C9: a run of the encrypter that ends without an exception opens
    [encrypted_message.txt] for writing and changes the file system in that
    one place: the file holds the armored
    ciphertext followed by a newline, whatever it held before, and nothing
    goes to standard output.  No run of a decrypter changes the file
    system; a complete one adds the decrypted text and a newline to standard
    output. *)
Theorem C9_files_written (L : Library) (w : World) :
  (is_ok (pgp_encrypter.main L w).1 = true ->
   exists text,
     library_result Encrypter L w = Ok text /\
     EvOpenW "encrypted_message.txt" ∈ trace (pgp_encrypter.main L) w /\
     files (pgp_encrypter.main L w).2
       = <["encrypted_message.txt" := text +:+ newline]> (files w) /\
     (forall p, p <> "encrypted_message.txt" ->
        files (pgp_encrypter.main L w).2 !! p = files w !! p) /\
     stdout (pgp_encrypter.main L w).2 = stdout w) /\
  (forall s, s <> Encrypter ->
     files (script_main s L w).2 = files w /\
     (is_ok (script_main s L w).1 = true ->
      exists text,
        library_result s L w = Ok text /\
        stdout (script_main s L w).2 = stdout w +:+ text +:+ newline)).
Proof.
  split.
  - intros Hok. destruct (run_ok Encrypter L w Hok) as (text & Hres & Hrun & Ht).
    cbn [script_main] in Hrun, Ht. rewrite Hrun, Ht. exists text.
    split; [done |]. split; [set_solver |].
    repeat split. intros p Hp. cbn. by rewrite lookup_insert_ne.
  - intros s Hs. split.
    + destruct (run_cases_of s L w)
        as [(text & _ & -> & _)|(e & n & _ & _ & -> & _)]; [| done].
      by destruct s.
    + intros Hok. destruct (run_ok s L w Hok) as (text & Hres & -> & _).
      exists text. split; [done |]. by destruct s.
Qed.

Lemma C9_files_written_witness :
  is_ok (pgp_encrypter.main (OpenPGP.library OpenPGP.toy) (encrypt_world 65)).1 = true /\
  files (encrypt_world 65) !! "encrypted_message.txt" = Some "stale" /\
  exists text,
    library_result Encrypter (OpenPGP.library OpenPGP.toy) (encrypt_world 65) = Ok text /\
    EvOpenW "encrypted_message.txt"
      ∈ trace (pgp_encrypter.main (OpenPGP.library OpenPGP.toy)) (encrypt_world 65) /\
    files (pgp_encrypter.main (OpenPGP.library OpenPGP.toy) (encrypt_world 65)).2
      = <["encrypted_message.txt" := text +:+ newline]> (files (encrypt_world 65)) /\
    (forall p, p <> "encrypted_message.txt" ->
       files (pgp_encrypter.main (OpenPGP.library OpenPGP.toy) (encrypt_world 65)).2 !! p
       = files (encrypt_world 65) !! p) /\
    stdout (pgp_encrypter.main (OpenPGP.library OpenPGP.toy) (encrypt_world 65)).2
      = stdout (encrypt_world 65).
Proof.
  split; [vm_compute; reflexivity |].
  split; [vm_compute; reflexivity |].
  apply (C9_files_written (OpenPGP.library OpenPGP.toy) (encrypt_world 65)).
  vm_compute; reflexivity.
Defined.

(** ** C6, C8, C10: what a run depends on *)


(** Runs in worlds that agree on the script's input files end alike and
    make the same calls; for the encrypter the random octets must agree
    too. *)
Lemma behaviour_agree (s : script) (L : Library) (w1 w2 : World) :
  same_inputs s w1 w2 -> (s = Encrypter -> urandom w1 = urandom w2) ->
  library_result s L w1 = library_result s L w2 /\
  behaviour s L w1 = behaviour s L w2.
Proof.
  intros Hin Hrand.
  destruct (decide (s = Encrypter)) as [Hs|Hs]; [by apply run_agree; auto |].
  set (w := mkWorld (files w1) (stdout w1) (urandom w2) (calls w1)).
  destruct (run_agree s L w w2 Hin eq_refl) as [Hl Hb].
  rewrite <- Hl, <- Hb. split; [by destruct s |].
  unfold behaviour, trace, w.
  by rewrite (decrypter_ignores_urandom s L w1 (urandom w2) Hs).
Qed.

(** What a decrypter adds to standard output is the text its library
    calls give, when they give one. *)
Lemma decrypter_stdout (s : script) (L : Library) (w : World) :
  s <> Encrypter ->
  stdout (script_main s L w).2
  = stdout w +:+ match library_result s L w with
                 | Ok text => text +:+ newline
                 | Raise _ => ""
                 end.
Proof.
  intros Hs.
  destruct (run_cases_of s L w)
    as [(text & -> & -> & _)|(e & n & -> & _ & -> & _)].
  - by destruct s.
  - cbn. by rewrite append_empty_r.
Qed.




(** C8: the [main] of [pgp_encoder.py] and the [main] of
    [keys_from_files/pgp_decrypter.py] are the same computation, and in worlds
    that agree on the contents of the key file and of the message file they
    make the same calls (load key, load message, decrypt, print), end alike
    and print the same text. *)
Theorem C8_encoder_is_decrypter (L : Library) (w1 w2 : World) :
  same_inputs Decrypter w1 w2 ->
  pgp_encoder.main L w1 = pgp_decrypter.main L w1 /\
  library_result Encoder L w1 = library_result Decrypter L w2 /\
  behaviour Encoder L w1 = behaviour Decrypter L w2 /\
  exists out,
    stdout (pgp_encoder.main L w1).2 = stdout w1 +:+ out /\
    stdout (pgp_decrypter.main L w2).2 = stdout w2 +:+ out.
Proof.
  intros Hin.
  destruct (behaviour_agree Decrypter L w1 w2 Hin ltac:(discriminate)) as [Hl Hb].
  split; [reflexivity |]. split; [exact Hl |]. split; [exact Hb |].
  eexists. split.
  - apply (decrypter_stdout Encoder L w1). discriminate.
  - change (library_result Encoder L w1) with (library_result Decrypter L w1).
    rewrite Hl. apply (decrypter_stdout Decrypter L w2). discriminate.
Qed.

Lemma C8_encoder_is_decrypter_witness :
  same_inputs Decrypter decrypt_world busy_world /\
  library_result Encoder (OpenPGP.library OpenPGP.toy) decrypt_world = Ok "hello" /\
  library_result Encoder (OpenPGP.library OpenPGP.toy) decrypt_world
    = library_result Decrypter (OpenPGP.library OpenPGP.toy) busy_world /\
  behaviour Encoder (OpenPGP.library OpenPGP.toy) decrypt_world
    = behaviour Decrypter (OpenPGP.library OpenPGP.toy) busy_world.
Proof.
  assert (same_inputs Decrypter decrypt_world busy_world) as Hin
    by (repeat constructor).
  split; [exact Hin |]. split; [vm_compute; reflexivity |].
  pose proof (C8_encoder_is_decrypter (OpenPGP.library OpenPGP.toy)
                decrypt_world busy_world Hin) as (_ & Hl & Hb & _).
  split; [exact Hl | exact Hb].
Defined.

(** C10: a decrypter is deterministic: two runs in worlds that agree on the
    contents of the secret-key file and of the armored-message file get the
    same text from the library, end alike, make the same calls and add the
    same text to standard output; and the run is the same whatever the
    second component of the result of [PGPKey.from_file] is. *)
Theorem C10_decrypter_deterministic (s : script) (L : Library) (w1 w2 : World) :
  s <> Encrypter -> same_inputs s w1 w2 ->
  library_result s L w1 = library_result s L w2 /\
  behaviour s L w1 = behaviour s L w2 /\
  (exists out,
     stdout (script_main s L w1).2 = stdout w1 +:+ out /\
     stdout (script_main s L w2).2 = stdout w2 +:+ out) /\
  (forall (T : Type) (g : Others L -> T),
     script_main s (with_others L g) w1 = script_main s L w1).
Proof.
  intros Hs Hin.
  destruct (behaviour_agree s L w1 w2 Hin ltac:(done)) as [Hl Hb].
  split; [exact Hl |]. split; [exact Hb |]. split.
  - eexists. split; [by apply decrypter_stdout |].
    rewrite Hl. by apply decrypter_stdout.
  - intros T g. clear Hin Hl Hb. destruct s; [done | |];
      run_unfold; unfold with_others, result_map;
      cbn [key_parse message_parse key_decrypt message];
      repeat run_case; reflexivity.
Qed.

Lemma C10_decrypter_deterministic_witness :
  same_inputs Decrypter decrypt_world busy_world /\
  files decrypt_world <> files busy_world /\
  behaviour Decrypter (OpenPGP.library OpenPGP.toy) decrypt_world
    = behaviour Decrypter (OpenPGP.library OpenPGP.toy) busy_world /\
  behaviour Decrypter (OpenPGP.library OpenPGP.toy) busy_world
    = (Ok tt, script_calls Decrypter "hello").
Proof.
  assert (same_inputs Decrypter decrypt_world busy_world) as Hin
    by (repeat constructor).
  split; [exact Hin |].
  split; [intros H; apply (f_equal (fun m => m !! "notes.txt")) in H;
          vm_compute in H; discriminate |].
  split; [| vm_compute; reflexivity].
  apply (C10_decrypter_deterministic Decrypter (OpenPGP.library OpenPGP.toy)
           decrypt_world busy_world); [discriminate | exact Hin].
Defined.

(** ** C2 to C5: the four operations of the library's interface *)

Ltac interface_unfold :=
  unfold OpenPGP.loadKey, OpenPGP.loadMessage, OpenPGP.encrypt, OpenPGP.decrypt,
    key_file, message_file in *;
  run_unfold;
  cbn [OpenPGP.library key_parse message_parse message_new key_encrypt
       key_decrypt message armor] in *;
  unfold OpenPGP.parse_key, OpenPGP.parse_message, OpenPGP.encrypt_message,
    OpenPGP.decrypt_message in *.

(** Rewrite with the facts at hand until the run is computed. *)
Ltac interface_run :=
  interface_unfold;
  repeat (match goal with
          | H : ?x = _ |- context [?x] => rewrite H
          end; cbn [files stdout urandom calls fst snd]);
  unfold logged; rewrite <- ?app_assoc; try reflexivity.

(** C4: [loadKey], which is [PGPKey.from_file] as the scripts use it, parses
    the content of the file at any path as a key: on content that is
    malformed as a key it fails with [KeyFormatError], on well-formed content
    it returns the key handle; and a script whose key file is malformed ends
    with that failure at its first call. *)
Theorem C4_loadKey (E : OpenPGP.Engine) (path data : string) (w : World) :
  files w !! path = Some data ->
  (OpenPGP.key_of_data E data = None ->
   OpenPGP.loadKey E path w = (Raise KeyFormatError, logged w [EvKeyFromFile path])) /\
  (forall k x, OpenPGP.key_of_data E data = Some (k, x) ->
   OpenPGP.loadKey E path w = (Ok k, logged w [EvKeyFromFile path])) /\
  (forall s, key_file s = path -> OpenPGP.key_of_data E data = None ->
   script_main s (OpenPGP.library E) w
   = (Raise KeyFormatError, logged w [EvKeyFromFile path])).
Proof.
  intros Hfile. split; [| split].
  - intros Hbad. interface_run.
  - intros k x Hgood. interface_run.
  - intros s <- Hbad. destruct s; interface_run.
Qed.

Lemma C4_loadKey_witness :
  files bad_key_world !! "./key_files/person_two/sec.asc" = Some "not a key" /\
  OpenPGP.key_of_data OpenPGP.toy "not a key" = None /\
  OpenPGP.loadKey OpenPGP.toy "./key_files/person_two/sec.asc" bad_key_world
    = (Raise KeyFormatError,
       logged bad_key_world [EvKeyFromFile "./key_files/person_two/sec.asc"]) /\
  script_main Decrypter (OpenPGP.library OpenPGP.toy) bad_key_world
    = (Raise KeyFormatError,
       logged bad_key_world [EvKeyFromFile "./key_files/person_two/sec.asc"]).
Proof.
  assert (files bad_key_world !! "./key_files/person_two/sec.asc"
          = Some "not a key") as Hfile by (vm_compute; reflexivity).
  split; [exact Hfile |]. split; [reflexivity |].
  pose proof (C4_loadKey OpenPGP.toy _ _ bad_key_world Hfile) as (Hload & _ & Hmain).
  split; [by apply Hload | by apply (Hmain Decrypter)].
Defined.

(** C5: [loadMessage], which is [PGPMessage.from_file] as the scripts use
    it, parses the content of the file at any path as an armored ciphertext:
    on content that is malformed as a message it fails with
    [MessageFormatError], on well-formed content it returns the message
    handle; and a decrypter whose key file loads and whose message file is
    malformed ends with that failure at its second call. *)
Theorem C5_loadMessage (E : OpenPGP.Engine) (path data : string) (w : World) :
  files w !! path = Some data ->
  (OpenPGP.message_of_armor E data = None ->
   OpenPGP.loadMessage E path w
   = (Raise MessageFormatError, logged w [EvMessageFromFile path])) /\
  (forall m, OpenPGP.message_of_armor E data = Some m ->
   OpenPGP.loadMessage E path w = (Ok m, logged w [EvMessageFromFile path])) /\
  (forall s kd kx, s <> Encrypter -> path = message_file ->
   files w !! key_file s = Some kd -> OpenPGP.key_of_data E kd = Some kx ->
   OpenPGP.message_of_armor E data = None ->
   script_main s (OpenPGP.library E) w
   = (Raise MessageFormatError,
      logged w [EvKeyFromFile (key_file s); EvMessageFromFile path])).
Proof.
  intros Hfile. split; [| split].
  - intros Hbad. interface_run.
  - intros m Hgood. interface_run.
  - intros s kd [k x] Hs -> Hkey Hkd Hbad. destruct s; [done | |]; interface_run.
Qed.

Lemma C5_loadMessage_witness :
  files bad_message_world !! "p1_armored_message.txt" = Some "hello" /\
  OpenPGP.message_of_armor OpenPGP.toy "hello" = None /\
  OpenPGP.loadMessage OpenPGP.toy "p1_armored_message.txt" bad_message_world
    = (Raise MessageFormatError,
       logged bad_message_world [EvMessageFromFile "p1_armored_message.txt"]) /\
  script_main Decrypter (OpenPGP.library OpenPGP.toy) bad_message_world
    = (Raise MessageFormatError,
       logged bad_message_world
         [EvKeyFromFile "./key_files/person_two/sec.asc";
          EvMessageFromFile "p1_armored_message.txt"]).
Proof.
  assert (files bad_message_world !! "p1_armored_message.txt" = Some "hello")
    as Hfile by (vm_compute; reflexivity).
  split; [exact Hfile |]. split; [reflexivity |].
  pose proof (C5_loadMessage OpenPGP.toy _ _ bad_message_world Hfile)
    as (Hload & _ & Hmain).
  split; [by apply Hload |].
  apply (Hmain Decrypter "bE-" (OpenPGP.mkToyKey "b" true false, tt));
    [discriminate | reflexivity | vm_compute; reflexivity | reflexivity
    | reflexivity].
Defined.

(** C3: [encrypt] fails with [EncryptionError] if and only if the key has no
    encryption-capable subkey, and otherwise returns the armored ciphertext;
    the [main] of the encrypter ends with that failure at its third call,
    with no file written. *)
Theorem C3_encrypt (E : OpenPGP.Engine) (k : OpenPGP.Key E) (plaintext : string)
    (w : World) :
  ((OpenPGP.encrypt E k plaintext w).1 = Raise EncryptionError <->
   OpenPGP.encryption_capable E k = false) /\
  (OpenPGP.encryption_capable E k = true ->
   (OpenPGP.encrypt E k plaintext w).1
   = Ok (OpenPGP.armor_of E
           (OpenPGP.seal E k (OpenPGP.literal E plaintext) (urandom w)))) /\
  (forall kd x,
   files w !! key_file Encrypter = Some kd ->
   OpenPGP.key_of_data E kd = Some (k, x) ->
   OpenPGP.encryption_capable E k = false ->
   pgp_encrypter.main (OpenPGP.library E) w
   = (Raise EncryptionError, logged w (library_calls Encrypter))).
Proof.
  split; [| split].
  - interface_unfold. destruct (OpenPGP.encryption_capable E k); cbn; split;
      (done || discriminate).
  - intros Hcap. interface_run.
  - intros kd x Hfile Hkd Hcap. interface_run.
Qed.

Lemma C3_encrypt_witness :
  files sign_only_world !! "./key_files/pub.asc" = Some "a--" /\
  OpenPGP.key_of_data OpenPGP.toy "a--"
    = Some (OpenPGP.mkToyKey "a" false false, tt) /\
  pgp_encrypter.main (OpenPGP.library OpenPGP.toy) sign_only_world
    = (Raise EncryptionError, logged sign_only_world (library_calls Encrypter)).
Proof.
  assert (files sign_only_world !! "./key_files/pub.asc" = Some "a--")
    as Hfile by (vm_compute; reflexivity).
  split; [exact Hfile |]. split; [reflexivity |].
  pose proof (C3_encrypt OpenPGP.toy (OpenPGP.mkToyKey "a" false false) ""
                sign_only_world) as (_ & _ & Hmain).
  apply (Hmain "a--" tt); [exact Hfile | reflexivity | reflexivity].
Defined.

(** C2, as stated, fails: a key that matches the message but is locked by a
    passphrase does not give the plaintext; [decrypt] fails with
    [PassphraseError], and so does the decrypter's [main]. *)
Lemma C2_matching_key_may_fail :
  let k := OpenPGP.mkToyKey "b" true true in
  let m := OpenPGP.Sealed "b" "k" "hello" in
  OpenPGP.key_of_data OpenPGP.toy "bEL" = Some (k, tt) /\
  OpenPGP.message_of_armor OpenPGP.toy "#bkhello" = Some m /\
  OpenPGP.key_matches OpenPGP.toy k m = true /\
  (OpenPGP.decrypt OpenPGP.toy k m locked_world).1 = Raise PassphraseError /\
  behaviour Decrypter (OpenPGP.library OpenPGP.toy) locked_world
    = (Raise PassphraseError, library_calls Decrypter).
Proof. cbv zeta. repeat split; vm_compute; reflexivity. Qed.

(** C2 (amended): [decrypt] fails with [DecryptionError] whenever the key
    does not match the message; when the key matches it fails with
    [WrongKeyError] or [PassphraseError] where one applies and returns the
    plaintext otherwise; a failure of [decrypt] ends the [main] of a
    decrypter with the same exception at its third call, with nothing
    printed. *)
Theorem C2_decrypt (E : OpenPGP.Engine) (k : OpenPGP.Key E) (m : OpenPGP.Message E)
    (w : World) :
  (OpenPGP.key_matches E k m = false ->
   OpenPGP.decrypt E k m w = (Raise DecryptionError, logged w [EvDecrypt])) /\
  (forall f, OpenPGP.key_matches E k m = true ->
   OpenPGP.applicable E k m = Some f ->
   OpenPGP.decrypt E k m w = (Raise (OpenPGP.fault_exn f), logged w [EvDecrypt])) /\
  (OpenPGP.key_matches E k m = true -> OpenPGP.applicable E k m = None ->
   OpenPGP.decrypt E k m w
   = (Ok (OpenPGP.text_of E (OpenPGP.unseal E k m)), logged w [EvDecrypt])) /\
  (forall s kd x md e, s <> Encrypter ->
   files w !! key_file s = Some kd -> OpenPGP.key_of_data E kd = Some (k, x) ->
   files w !! message_file = Some md -> OpenPGP.message_of_armor E md = Some m ->
   (OpenPGP.decrypt E k m w).1 = Raise e ->
   script_main s (OpenPGP.library E) w = (Raise e, logged w (library_calls s))).
Proof.
  split; [| split; [| split]].
  - intros Hno. interface_run.
  - intros f Hyes Hf. interface_run.
  - intros Hyes Hnone. interface_run.
  - intros s kd x md e Hs Hkey Hkd Hmsg Hmd. destruct s; [done | |];
      interface_unfold;
      repeat (match goal with
              | H : ?x = _ |- context [?x] => rewrite H
              end; cbn [files stdout urandom calls fst snd]);
      (destruct (OpenPGP.key_matches E k m);
       [destruct (OpenPGP.applicable E k m) |]);
      cbn [fst]; intros [= <-];
      unfold logged; rewrite <- ?app_assoc; reflexivity.
Qed.

Lemma C2_decrypt_witness :
  let k := OpenPGP.mkToyKey "c" true false in
  let m := OpenPGP.Sealed "b" "k" "hello" in
  OpenPGP.key_matches OpenPGP.toy k m = false /\
  OpenPGP.decrypt OpenPGP.toy k m mismatch_world
    = (Raise DecryptionError, logged mismatch_world [EvDecrypt]) /\
  script_main Decrypter (OpenPGP.library OpenPGP.toy) mismatch_world
    = (Raise DecryptionError, logged mismatch_world (library_calls Decrypter)).
Proof.
  cbv zeta.
  pose proof (C2_decrypt OpenPGP.toy (OpenPGP.mkToyKey "c" true false)
                (OpenPGP.Sealed "b" "k" "hello") mismatch_world)
    as (Hno & _ & _ & Hmain).
  split; [reflexivity |]. split; [by apply Hno |].
  apply (Hmain Decrypter "cE-" tt "#bkhello" DecryptionError);
    [discriminate | vm_compute; reflexivity | reflexivity
    | vm_compute; reflexivity | reflexivity | reflexivity].
Defined.

(** * Further properties of the scripts *)

(** A run changes no file but, at most, the encrypter's output file, and
    leaves the random octets as they are. *)
Lemma run_keeps_files (s : script) (L : Library) (w : World) (p : string) :
  p <> "encrypted_message.txt" ->
  files (script_main s L w).2 !! p = files w !! p.
Proof.
  intros Hp.
  destruct (run_cases_of s L w)
    as [(text & _ & -> & _)|(e & n & _ & _ & -> & _)]; [| done].
  destruct s; cbn; [by rewrite lookup_insert_ne | done..].
Qed.

Lemma run_keeps_urandom (s : script) (L : Library) (w : World) :
  urandom (script_main s L w).2 = urandom w.
Proof.
  destruct (run_cases_of s L w)
    as [(text & _ & -> & _)|(e & n & _ & _ & -> & _)]; [| done].
  by destruct s.
Qed.

Lemma decrypter_keeps_files (s : script) (L : Library) (w : World) :
  s <> Encrypter -> files (script_main s L w).2 = files w.
Proof.
  intros Hs.
  destruct (run_cases_of s L w)
    as [(text & _ & -> & _)|(e & n & _ & _ & -> & _)]; [| done].
  by destruct s.
Qed.

(** Refute membership in a list written out, element by element. *)
Ltac not_listed H :=
  repeat (apply elem_of_cons in H as [H|H]; [discriminate |]);
  by apply elem_of_nil in H.

Lemma same_inputs_after (s s' : script) (L : Library) (w : World) :
  same_inputs s (script_main s' L w).2 w.
Proof.
  apply Forall_forall. intros p Hp. apply run_keeps_files.
  intros ->. destruct s; cbn in Hp; not_listed Hp.
Qed.

(** X1: a run in which a file read or a library call raises has changed
    neither the file system nor standard output and has made library calls
    only: in particular the encrypter opens, and so truncates, its output
    file only once encryption has succeeded. *)
Theorem X1_failed_chain_changes_nothing (s : script) (L : Library) (w : World)
    (e : exn) :
  library_result s L w = Raise e ->
  files (script_main s L w).2 = files w /\
  stdout (script_main s L w).2 = stdout w /\
  trace (script_main s L) w `prefix_of` library_calls s /\
  EvOpenW "encrypted_message.txt" ∉ trace (script_main s L) w.
Proof.
  intros Hfail.
  destruct (run_cases_of s L w)
    as [(text & Hres & _)|(e' & n & _ & Hn & Hrun & Ht)].
  { rewrite Hres in Hfail. discriminate. }
  rewrite Hrun, Ht. cbn [snd logged files stdout].
  destruct (failed_calls s n "" w Hn) as (_ & Hpre & _).
  repeat split; [exact Hpre |].
  intros Hin. destruct Hpre as [k Hk].
  assert (EvOpenW "encrypted_message.txt" ∈ library_calls s) as Hlib
    by (rewrite Hk; apply elem_of_app; by left).
  destruct s; cbn in Hlib; not_listed Hlib.
Qed.

Lemma X1_failed_chain_changes_nothing_witness :
  let toy := OpenPGP.library OpenPGP.toy in
  let w := world_of (<["./key_files/pub.asc" := "a--"]>
                     (<["encrypted_message.txt" := "stale"]> ∅)) 0 in
  library_result Encrypter toy w = Raise EncryptionError /\
  files (script_main Encrypter toy w).2 !! "encrypted_message.txt" = Some "stale" /\
  files (script_main Encrypter toy w).2 = files w /\
  stdout (script_main Encrypter toy w).2 = stdout w.
Proof.
  cbv zeta.
  assert (library_result Encrypter (OpenPGP.library OpenPGP.toy)
            (world_of (<["./key_files/pub.asc" := "a--"]>
                       (<["encrypted_message.txt" := "stale"]> ∅)) 0)
          = Raise EncryptionError) as Hfail by (vm_compute; reflexivity).
  split; [exact Hfail |]. split; [vm_compute; reflexivity |].
  pose proof (X1_failed_chain_changes_nothing Encrypter
                (OpenPGP.library OpenPGP.toy) _ _ Hfail) as (Hfiles & Hout & _).
  split; [exact Hfiles | exact Hout].
Defined.

(** X2: a script's [main] catches nothing: when a file read or a library
    call raises, [main] ends with that same exception; so a [main] that ends
    without an exception had every read and every library call succeed. *)
Theorem X2_main_catches_nothing (s : script) (L : Library) (w : World) :
  (forall e, library_result s L w = Raise e -> (script_main s L w).1 = Raise e) /\
  (is_ok (script_main s L w).1 = true ->
   exists text, library_result s L w = Ok text).
Proof.
  split.
  - intros e Hfail.
    destruct (run_cases_of s L w)
      as [(text & Hres & _)|(e' & n & Hres & _ & -> & _)];
      rewrite Hres in Hfail; [discriminate | by injection Hfail as ->].
  - intros Hok. destruct (run_ok s L w Hok) as (text & Hres & _). by exists text.
Qed.

Lemma X2_main_catches_nothing_witness :
  let toy := OpenPGP.library OpenPGP.toy in
  library_result Decrypter toy mismatch_world = Raise DecryptionError /\
  (script_main Decrypter toy mismatch_world).1 = Raise DecryptionError /\
  is_ok (script_main Decrypter toy decrypt_world).1 = true /\
  exists text, library_result Decrypter toy decrypt_world = Ok text.
Proof.
  cbv zeta.
  assert (library_result Decrypter (OpenPGP.library OpenPGP.toy) mismatch_world
          = Raise DecryptionError) as Hfail by (vm_compute; reflexivity).
  assert (is_ok (script_main Decrypter (OpenPGP.library OpenPGP.toy)
                   decrypt_world).1 = true) as Hok by (vm_compute; reflexivity).
  split; [exact Hfail |]. split.
  - exact (proj1 (X2_main_catches_nothing Decrypter (OpenPGP.library OpenPGP.toy)
                    mismatch_world) _ Hfail).
  - split; [exact Hok |].
    exact (proj2 (X2_main_catches_nothing Decrypter (OpenPGP.library OpenPGP.toy)
                    decrypt_world) Hok).
Defined.

(** X3: the key comes first: when the key file is missing ([OSError]) or the
    library rejects its content, [main] ends with that exception after the
    one call to [PGPKey.from_file], whatever the message file holds. *)
Theorem X3_key_failure_first (s : script) (L : Library) (w : World) (e : exn) :
  (data ← read (files w) (key_file s); key_parse L data) = Raise e ->
  script_main s L w = (Raise e, logged w [EvKeyFromFile (key_file s)]).
Proof.
  destruct s; unfold key_file, logged; run_cases; intros [= <-]; reflexivity.
Qed.

Lemma X3_key_failure_first_witness :
  files empty_world !! key_file Encoder = None /\
  script_main Encoder (OpenPGP.library OpenPGP.toy) empty_world
    = (Raise OSError, logged empty_world [EvKeyFromFile (key_file Encoder)]) /\
  script_main Decrypter (OpenPGP.library OpenPGP.toy) bad_key_world
    = (Raise KeyFormatError,
       logged bad_key_world [EvKeyFromFile (key_file Decrypter)]).
Proof.
  split; [vm_compute; reflexivity |]. split.
  - apply (X3_key_failure_first Encoder (OpenPGP.library OpenPGP.toy) empty_world).
    vm_compute; reflexivity.
  - apply (X3_key_failure_first Decrypter (OpenPGP.library OpenPGP.toy)
             bad_key_world).
    vm_compute; reflexivity.
Defined.

(** X4: once the key is loaded, a decrypter whose message file is missing
    ([OSError]) or rejected by the library ends with that exception after
    its second call: [decrypt] is not called and nothing is printed. *)
Theorem X4_message_failure_second (s : script) (L : Library) (w : World)
    (kd : string) (kx : KeyHandle L * Others L) (e : exn) :
  s <> Encrypter ->
  files w !! key_file s = Some kd -> key_parse L kd = Ok kx ->
  (data ← read (files w) message_file; message_parse L data) = Raise e ->
  script_main s L w
  = (Raise e, logged w [EvKeyFromFile (key_file s); EvMessageFromFile message_file]).
Proof.
  intros Hs Hkey Hkd. destruct kx as [k x].
  destruct s; [done | |]; unfold key_file, message_file, logged in *;
    run_unfold; rewrite Hkey, Hkd; cbn [files stdout urandom calls fst snd];
    repeat run_case; intros [= <-]; rewrite <- ?app_assoc; reflexivity.
Qed.

Lemma X4_message_failure_second_witness :
  files bad_message_world !! key_file Decrypter = Some "bE-" /\
  script_main Decrypter (OpenPGP.library OpenPGP.toy) bad_message_world
    = (Raise MessageFormatError,
       logged bad_message_world
         [EvKeyFromFile (key_file Decrypter); EvMessageFromFile message_file]).
Proof.
  assert (files bad_message_world !! key_file Decrypter = Some "bE-") as Hkey
    by (vm_compute; reflexivity).
  split; [exact Hkey |].
  apply (X4_message_failure_second Decrypter (OpenPGP.library OpenPGP.toy)
           bad_message_world "bE-" (OpenPGP.mkToyKey "b" true false, tt));
    [discriminate | exact Hkey | reflexivity | vm_compute; reflexivity].
Defined.



(** X6: a decrypter can be run again: the first run leaves the file system
    as it was, so the second run ends the same way and makes the same calls,
    and standard output holds what the first run printed followed by the
    same text once more. *)
Theorem X6_decrypter_rerun (s : script) (L : Library) (w : World) :
  s <> Encrypter ->
  let w1 := (script_main s L w).2 in
  files w1 = files w /\
  files (script_main s L w1).2 = files w /\
  behaviour s L w1 = behaviour s L w /\
  exists out,
    stdout w1 = stdout w +:+ out /\
    stdout (script_main s L w1).2 = (stdout w +:+ out) +:+ out.
Proof.
  intros Hs. cbv zeta.
  pose proof (decrypter_keeps_files s L w Hs) as Hfiles.
  destruct (run_agree s L (script_main s L w).2 w
              (same_inputs_after s s L w) (run_keeps_urandom s L w)) as [Hl Hb].
  split; [exact Hfiles |].
  split; [by rewrite decrypter_keeps_files |].
  split; [exact Hb |].
  eexists. split; [by apply decrypter_stdout |].
  rewrite (decrypter_stdout s L (script_main s L w).2 Hs), Hl.
  by rewrite (decrypter_stdout s L w Hs).
Qed.

Lemma X6_decrypter_rerun_witness :
  let toy := OpenPGP.library OpenPGP.toy in
  stdout (script_main Decrypter toy decrypt_world).2 = "hello" +:+ newline /\
  stdout (script_main Decrypter toy (script_main Decrypter toy decrypt_world).2).2
    = ("hello" +:+ newline) +:+ "hello" +:+ newline /\
  behaviour Decrypter toy (script_main Decrypter toy decrypt_world).2
    = behaviour Decrypter toy decrypt_world.
Proof.
  cbv zeta. split; [vm_compute; reflexivity |]. split; [vm_compute; reflexivity |].
  apply (X6_decrypter_rerun Decrypter (OpenPGP.library OpenPGP.toy) decrypt_world).
  discriminate.
Defined.

(** X7: the scripts do not feed one another: the file the encrypter writes,
    [encrypted_message.txt], is not a file a decrypter reads, so a decrypter
    run after the encrypter behaves as it would have without it; and, a
    decrypter writing no file, the encrypter run after a decrypter behaves
    as it would have without it. *)
Theorem X7_scripts_do_not_feed_one_another (s : script) (L : Library) (w : World) :
  s <> Encrypter ->
  library_result s L (script_main Encrypter L w).2 = library_result s L w /\
  behaviour s L (script_main Encrypter L w).2 = behaviour s L w /\
  behaviour Encrypter L (script_main s L w).2 = behaviour Encrypter L w.
Proof.
  intros Hs.
  destruct (run_agree s L (script_main Encrypter L w).2 w
              (same_inputs_after s Encrypter L w)
              (run_keeps_urandom Encrypter L w)) as [Hl Hb].
  split; [exact Hl |]. split; [exact Hb |].
  apply run_agree; [apply same_inputs_after | apply run_keeps_urandom].
Qed.

Lemma X7_scripts_do_not_feed_one_another_witness :
  let toy := OpenPGP.library OpenPGP.toy in
  let w := world_of (<["./key_files/pub.asc" := "aE-"]> (files decrypt_world)) 65 in
  is_ok (script_main Encrypter toy w).1 = true /\
  files (script_main Encrypter toy w).2 <> files w /\
  behaviour Decrypter toy (script_main Encrypter toy w).2
    = (Ok tt, script_calls Decrypter "hello") /\
  behaviour Decrypter toy (script_main Encrypter toy w).2 = behaviour Decrypter toy w.
Proof.
  cbv zeta. split; [vm_compute; reflexivity |].
  split; [intros H; apply (f_equal (fun m => m !! "encrypted_message.txt")) in H;
          vm_compute in H; discriminate |].
  split; [vm_compute; reflexivity |].
  pose proof (X7_scripts_do_not_feed_one_another Decrypter
                (OpenPGP.library OpenPGP.toy)
                (world_of (<["./key_files/pub.asc" := "aE-"]> (files decrypt_world)) 65)
                ltac:(discriminate)) as (_ & Hb & _).
  exact Hb.
Defined.

(** X8: the encrypter, too, uses only the first component of the result of
    [PGPKey.from_file]: its run is the same whatever the second component
    is. *)
Theorem X8_encrypter_discards_others (L : Library) (T : Type)
    (g : Others L -> T) (w : World) :
  pgp_encrypter.main (with_others L g) w = pgp_encrypter.main L w.
Proof.
  run_unfold; unfold with_others, result_map;
    cbn [key_parse message_new key_encrypt armor];
    repeat run_case; reflexivity.
Qed.
